(** * DefaultErrorHandler: response classification and backoff selection

    A shallow embedding of
    [airbyte_cdk/sources/declarative/requesters/error_handlers/default_error_handler.py]
    and the properties of its two public operations, [interpret_response]
    and [backoff_time].

    The handler is a Python dataclass: its methods read and assign
    attributes of [self].  They are embedded in a state monad over the
    record of those attributes, so that what a call leaves untouched is a
    statement about the final state and not a matter of typing. *)

From Stdlib Require Import ZArith String Floats.PrimFloat.
From stdpp Require Import base option list gmap.

Open Scope Z_scope.

(** ** Python values the handler looks at *)

Module Py.

(** [bool(x)] for an [Optional[float]]: [None] and both zeroes are
    false, every other float (NaN included) is true. *)
Definition truthy_float (x : option float) : bool :=
  match x with
  | None => false
  | Some f => negb (PrimFloat.eqb f 0%float)
  end.

(** [bool(x)] for an [Optional[List[...]]]: [None] and [[]] are false. *)
Definition truthy_list {A : Type} (x : option (list A)) : bool :=
  match x with
  | None | Some [] => false
  | Some (_ :: _) => true
  end.

(** [x or []] for an [Optional[List[...]]]. *)
Definition or_empty {A : Type} (x : option (list A)) : list A :=
  match x with
  | Some (a :: l) => a :: l
  | _ => []
  end.

(** [x.append(item)] where [x] holds a list. *)
Definition append {A : Type} (x : option (list A)) (item : A) : option (list A) :=
  (λ l, l ++ [item]) <$> x.

(** [needle in haystack] on [str]: case-sensitive containment. *)
Fixpoint str_contains (needle haystack : string) : bool :=
  String.prefix needle haystack
  || match haystack with
     | EmptyString => false
     | String _ rest => str_contains needle rest
     end.

(** [Mapping[str, Any]]: configuration and parameters are only passed
    through by the handler, their values are never inspected. *)
Definition Mapping : Type := list (string * string).

End Py.

(** ** The part of the [requests] library the handler relies on *)

Module Requests.

(** [requests.PreparedRequest] defines neither [__eq__] nor [__hash__]:
    as a dictionary key it is compared by object identity. *)
Definition PreparedRequest : Type := positive.

Record Response : Type := {
  status_code : Z;
  request : PreparedRequest;
  text : string
}.

(** [Response.raise_for_status] raises [HTTPError] exactly for
    [400 <= status_code < 600]. *)
Definition raise_for_status_raises (r : Response) : bool :=
  (400 <=? status_code r) && (status_code r <? 600).

(** [Response.ok]: true unless [raise_for_status] raises. *)
Definition ok (r : Response) : bool := negb (raise_for_status_raises r).

End Requests.

Export Py Requests.

(** What a caller can pass as [response_or_exception]:
    [Optional[Union[requests.Response, Exception]]]. *)
Inductive PyValue : Type :=
| PyResponse (response : Response)
| PyException (message : string)
| PyNone.

(** [isinstance(v, requests.Response)] *)
Definition isinstance_Response (v : PyValue) : bool :=
  match v with PyResponse _ => true | _ => false end.

(** [isinstance(v, Exception)] *)
Definition isinstance_Exception (v : PyValue) : bool :=
  match v with PyException _ => true | _ => false end.

(** ** [airbyte_cdk.sources.streams.http.error_handlers.response_models] *)

Module ResponseModels.

(** Modelled from the spec: enum [ResponseAction] is imported from
    [response_models], which is not under src/. The spec (3) lists
    [Action ∈ {SUCCESS, RETRY, FAIL, IGNORE}]. *)
Inductive ResponseAction : Type := SUCCESS | RETRY | FAIL | IGNORE.

(** Modelled from the spec: enum [FailureType] is imported from
    [airbyte_cdk.models], which is not under src/. The spec (7) lists
    [FailureType ∈ {SYSTEM, CONFIG, TRANSIENT}]. *)
Inductive FailureType : Type := SYSTEM | CONFIG | TRANSIENT.

(** Modelled from the spec: class [ErrorResolution] is imported from
    [response_models], which is not under src/. The spec (3) gives it as
    the immutable value [{ action, failureType, errorMessage }]; the
    failure type is optional here because the spec names none for a
    success. *)
Record ErrorResolution : Type := {
  response_action : ResponseAction;
  failure_type : option FailureType;
  error_message : string
}.

(** Modelled from the spec: constant [SUCCESS_RESOLUTION] is imported from
    [response_models], which is not under src/. The spec (4.2) calls it
    the fixed resolution with action SUCCESS. *)
Definition SUCCESS_RESOLUTION : ErrorResolution :=
  {| response_action := SUCCESS; failure_type := None; error_message := EmptyString |}.

(** Modelled from the spec: constant [DEFAULT_ERROR_RESOLUTION] is
    imported from [response_models], which is not under src/. The spec
    (4.2) gives it as action=RETRY, failureType=TRANSIENT. *)
Definition DEFAULT_ERROR_RESOLUTION : ErrorResolution :=
  {| response_action := RETRY; failure_type := Some TRANSIENT; error_message := EmptyString |}.

End ResponseModels.

Export ResponseModels.

(** ** The two collaborator interfaces *)

(** The handler uses a response filter through one method only,
    [matches], which returns a resolution or [None]. *)
Record HttpResponseFilter : Type := {
  matches : PyValue -> option ErrorResolution
}.

(** The handler uses a backoff strategy through one method only,
    [backoff_time(response_or_exception, attempt_count)], which returns a
    number of seconds or [None]. *)
Record BackoffStrategy : Type := {
  strategy_backoff_time : PyValue -> Z -> option float
}.

(** *** Filters built by [HttpResponseFilter(...)] *)

Module HttpResponseFilters.

(** Modelled from the spec: the failure type of a matched resolution is
    "inferred from action if unset" (spec 4.2); class [HttpResponseFilter]
    is not under src/ and the spec does not give the inference, beyond
    pairing RETRY with TRANSIENT in the default resolution. No property
    below observes it. *)
Definition infer_failure_type (a : ResponseAction) : option FailureType :=
  match a with
  | RETRY => Some TRANSIENT
  | FAIL => Some SYSTEM
  | SUCCESS | IGNORE => None
  end.

Definition resolution_of (a : ResponseAction) (ft : option FailureType) : ErrorResolution :=
  {| response_action := a;
     failure_type := match ft with Some t => Some t | None => infer_failure_type a end;
     error_message := EmptyString |}.

Definition is_2xx (status : Z) : bool := (200 <=? status) && (status <=? 299).

(** Modelled from the spec: [HttpResponseFilter(config=..., parameters={})],
    the filter that [__post_init__] appends; the class is not under src/.
    The spec (3) describes it as "a default catch-all filter matching any
    non-2xx status with action RETRY". *)
Definition default_filter (config parameters : Mapping) : HttpResponseFilter :=
  {| matches := fun v =>
       match v with
       | PyResponse r =>
           if is_2xx (status_code r) then None else Some (resolution_of RETRY None)
       | _ => None
       end |}.

(** Modelled from the spec: a filter with configured conditions; the class
    [HttpResponseFilter] is not under src/. The spec (3, 4.2): the filter
    holds [httpCodesToMatch], an optional [errorMessageSubstring], an
    optional [predicate], an [action] and an optional [failureType]; it
    matches if any condition that is present evaluates true (the status
    code is in the set; the substring is found in the response body or in
    the exception message, case-sensitively; the predicate holds), and a
    filter with no condition never matches. On a match it returns the
    action with the failure type, inferred if unset. *)
Definition rule_filter (config parameters : Mapping)
    (http_codes : list Z) (error_message_contains : option string)
    (predicate : option (PyValue -> bool))
    (action : ResponseAction) (failure_type : option FailureType) : HttpResponseFilter :=
  {| matches := fun v =>
       let code_match :=
         match v with
         | PyResponse r => bool_decide (status_code r ∈ http_codes)
         | _ => false
         end in
       let substring_match :=
         match error_message_contains, v with
         | Some s, PyResponse r => str_contains s (text r)
         | Some s, PyException msg => str_contains s msg
         | _, _ => false
         end in
       let predicate_match :=
         match predicate with
         | Some p => p v
         | None => false
         end in
       if code_match || substring_match || predicate_match
       then Some (resolution_of action failure_type)
       else None |}.

End HttpResponseFilters.

Export HttpResponseFilters.

(** ** The handler *)

(** The attributes of a [DefaultErrorHandler] instance.  [parameters] is an
    [InitVar]: it is handed to [__post_init__] and not stored. *)
Record DefaultErrorHandler : Type := {
  config : Mapping;
  response_filters : option (list HttpResponseFilter);
  max_retries : option Z;
  max_time : Z;
  _max_retries : Z;
  _max_time : Z;
  backoff_strategies : option (list BackoffStrategy);
  _last_request_to_attempt_count : gmap PreparedRequest Z
}.

(** Methods are computations over [self]. *)
Definition Method (A : Type) : Type := DefaultErrorHandler -> A * DefaultErrorHandler.

#[global] Instance Method_ret : MRet Method := fun A a self => (a, self).
#[global] Instance Method_bind : MBind Method :=
  fun A B f m self => let (a, self') := m self in f a self'.

(** [self.attr] *)
Definition getattr {A : Type} (attr : DefaultErrorHandler -> A) : Method A :=
  fun self => (attr self, self).

(** [self.response_filters = v] *)
Definition set_response_filters (v : option (list HttpResponseFilter)) : Method unit :=
  fun self =>
    (tt, {| config := config self;
            response_filters := v;
            max_retries := max_retries self;
            max_time := max_time self;
            _max_retries := _max_retries self;
            _max_time := _max_time self;
            backoff_strategies := backoff_strategies self;
            _last_request_to_attempt_count := _last_request_to_attempt_count self |}).

(** [self.backoff_strategies = v] *)
Definition set_backoff_strategies (v : option (list BackoffStrategy)) : Method unit :=
  fun self =>
    (tt, {| config := config self;
            response_filters := response_filters self;
            max_retries := max_retries self;
            max_time := max_time self;
            _max_retries := _max_retries self;
            _max_time := _max_time self;
            backoff_strategies := v;
            _last_request_to_attempt_count := _last_request_to_attempt_count self |}).

(** [self._last_request_to_attempt_count = v], also the effect of an
    item assignment on that dictionary. *)
Definition set_last_request_to_attempt_count (v : gmap PreparedRequest Z) : Method unit :=
  fun self =>
    (tt, {| config := config self;
            response_filters := response_filters self;
            max_retries := max_retries self;
            max_time := max_time self;
            _max_retries := _max_retries self;
            _max_time := _max_time self;
            backoff_strategies := backoff_strategies self;
            _last_request_to_attempt_count := v |}).

Definition result {A : Type} (m : Method A) (self : DefaultErrorHandler) : A := fst (m self).
Definition after {A : Type} (m : Method A) (self : DefaultErrorHandler) : DefaultErrorHandler :=
  snd (m self).

Section Construction.

(** The class attribute [DEFAULT_BACKOFF_STRATEGY = ExponentialBackoffStrategy];
    the class is imported and called with [parameters] and [config]. *)
Variable DEFAULT_BACKOFF_STRATEGY : Mapping -> Mapping -> BackoffStrategy.

(** The generated [__init__] stores the arguments; the two private fields
    are [init=False] with default 5 and 60 * 10. The attempt-count
    attribute does not exist before [__post_init__] creates it. *)
Definition __init__ (config : Mapping)
    (response_filters : option (list HttpResponseFilter))
    (max_retries : option Z) (max_time : Z)
    (backoff_strategies : option (list BackoffStrategy)) : DefaultErrorHandler :=
  {| config := config;
     response_filters := response_filters;
     max_retries := max_retries;
     max_time := max_time;
     _max_retries := 5;
     _max_time := 60 * 10;
     backoff_strategies := backoff_strategies;
     _last_request_to_attempt_count := ∅ |}.

(** When the caller passes a non-empty list, [or] keeps that very list
    object and [append] extends it in place, so the caller's list grows
    too; the record holds the handler's view of it. *)
Definition __post_init__ (parameters : Mapping) : Method unit :=
  filters ← getattr response_filters;
  set_response_filters (Some (or_empty filters));;
  filters ← getattr response_filters;
  cfg ← getattr config;
  set_response_filters (append filters (default_filter cfg []));;
  strategies ← getattr backoff_strategies;
  (if negb (truthy_list strategies)
   then cfg ← getattr config;
        set_backoff_strategies (Some [DEFAULT_BACKOFF_STRATEGY parameters cfg])
   else mret tt);;
  set_last_request_to_attempt_count ∅.

(** [DefaultErrorHandler(parameters=..., config=..., ...)] *)
Definition new (parameters config : Mapping)
    (response_filters : option (list HttpResponseFilter))
    (max_retries : option Z) (max_time : Z)
    (backoff_strategies : option (list BackoffStrategy)) : DefaultErrorHandler :=
  after (__post_init__ parameters)
        (__init__ config response_filters max_retries max_time backoff_strategies).

End Construction.

(** The [for response_filter in self.response_filters] loop with its early
    [return matched_status]; [None] when the loop runs to its end. *)
Fixpoint for_response_filters (filters : list HttpResponseFilter)
    (response_or_exception : PyValue) : option ErrorResolution :=
  match filters with
  | [] => None
  | response_filter :: rest =>
      match matches response_filter response_or_exception with
      | Some matched_status => Some matched_status
      | None => for_response_filters rest response_or_exception
      end
  end.

Definition interpret_response (response_or_exception : PyValue) : Method ErrorResolution :=
  match response_or_exception with
  | PyResponse response =>
      if ok response then mret SUCCESS_RESOLUTION
      else
        let request := request response in
        counts ← getattr _last_request_to_attempt_count;
        match counts !! request with
        | None => set_last_request_to_attempt_count {[ request := 1 ]}
        | Some n => set_last_request_to_attempt_count (<[ request := n + 1 ]> counts)
        end;;
        filters ← getattr response_filters;
        if truthy_list filters then
          match for_response_filters (or_empty filters) response_or_exception with
          | Some matched_status => mret matched_status
          | None => mret DEFAULT_ERROR_RESOLUTION
          end
        else mret DEFAULT_ERROR_RESOLUTION
  | _ => mret DEFAULT_ERROR_RESOLUTION
  end.

(** The [for backoff_strategies in self.backoff_strategies] loop: [backoff]
    is reassigned on every iteration and returned as soon as it is truthy;
    when the loop runs to its end the last assigned value is returned. *)
Fixpoint for_backoff_strategies (strategies : list BackoffStrategy)
    (response_or_exception : PyValue) (attempt_count : Z)
    (backoff : option float) : option float :=
  match strategies with
  | [] => backoff
  | strategy :: rest =>
      let backoff := strategy_backoff_time strategy response_or_exception attempt_count in
      if truthy_float backoff then backoff
      else for_backoff_strategies rest response_or_exception attempt_count backoff
  end.

Definition backoff_time (response_or_exception : PyValue) (attempt_count : Z)
    : Method (option float) :=
  let backoff := None in
  strategies ← getattr backoff_strategies;
  if truthy_list strategies
  then mret (for_backoff_strategies (or_empty strategies)
               response_or_exception attempt_count backoff)
  else mret backoff.

(** A caller's use of a handler over time: any sequence of the two public
    operations. *)
Inductive Call : Type :=
| InterpretResponse (response_or_exception : PyValue)
| BackoffTime (response_or_exception : PyValue) (attempt_count : Z).

Definition call (c : Call) : Method unit :=
  match c with
  | InterpretResponse v => interpret_response v ≫= λ _, mret tt
  | BackoffTime v n => backoff_time v n ≫= λ _, mret tt
  end.

Fixpoint calls (cs : list Call) : Method unit :=
  match cs with
  | [] => mret tt
  | c :: rest => call c;; calls rest
  end.

(** Two handler states that agree on every attribute but the attempt-count
    dictionary. *)
Definition same_except_attempt_counts (h1 h2 : DefaultErrorHandler) : Prop :=
  config h1 = config h2
  /\ response_filters h1 = response_filters h2
  /\ max_retries h1 = max_retries h2
  /\ max_time h1 = max_time h2
  /\ _max_retries h1 = _max_retries h2
  /\ _max_time h1 = _max_time h2
  /\ backoff_strategies h1 = backoff_strategies h2.

(** The outcomes that reach the bookkeeping and the filters: a response
    that is not [ok]. *)
Definition is_failed_response (v : PyValue) : bool :=
  match v with
  | PyResponse r => negb (ok r)
  | _ => false
  end.

(** The shapes the attempt-count dictionary takes: empty, or one entry
    with a count of at least 1. *)
Definition last_request_shape (counts : gmap PreparedRequest Z) : Prop :=
  counts = ∅ \/ exists (req : PreparedRequest) (n : Z), 1 <= n /\ counts = {[ req := n ]}.

(** ** Sample objects used by the examples *)

Module Samples.

Definition response (status : Z) (req : PreparedRequest) (body : string) : PyValue :=
  PyResponse {| status_code := status; request := req; text := body |}.

(** A strategy that waits a fixed number of seconds. *)
Definition constant_backoff (seconds : float) : BackoffStrategy :=
  {| strategy_backoff_time := fun _ _ => Some seconds |}.

(** A strategy with no opinion. *)
Definition no_backoff : BackoffStrategy :=
  {| strategy_backoff_time := fun _ _ => None |}.

(** Stands for the imported [ExponentialBackoffStrategy] where an example
    needs a constructed handler; nothing below depends on what it
    computes. *)
Definition some_default_strategy (parameters config : Mapping) : BackoffStrategy :=
  constant_backoff 5%float.

(** [DefaultErrorHandler(parameters={}, config={}, response_filters=filters)] *)
Definition handler (filters : option (list HttpResponseFilter)) : DefaultErrorHandler :=
  new some_default_strategy [] [] filters (Some 5) (60 * 10) None.

(** [DefaultErrorHandler(parameters={}, config={}, backoff_strategies=strategies)] *)
Definition handler_with_strategies (strategies : option (list BackoffStrategy))
    : DefaultErrorHandler :=
  new some_default_strategy [] [] None (Some 5) (60 * 10) strategies.

(** [HttpResponseFilter(http_codes=codes, action=action, ...)] *)
Definition http_codes_filter (codes : list Z) (action : ResponseAction) : HttpResponseFilter :=
  rule_filter [] [] codes None None action None.

(** [HttpResponseFilter(error_message_contains=s, action=action, ...)] *)
Definition error_message_filter (s : string) (action : ResponseAction) : HttpResponseFilter :=
  rule_filter [] [] [] (Some s) None action None.

End Samples.

(** * Properties *)

(** ** Unfolding the two operations *)

Ltac run_method :=
  cbv [result after interpret_response backoff_time call
       mbind Method_bind mret Method_ret getattr
       set_last_request_to_attempt_count set_response_filters
       set_backoff_strategies]; cbn [fst snd].

(** What [interpret_response] returns for a response that is not [ok]. *)
Definition resolve (filters : option (list HttpResponseFilter)) (v : PyValue) : ErrorResolution :=
  match filters with
  | Some (f :: fs) =>
      match for_response_filters (f :: fs) v with
      | Some matched_status => matched_status
      | None => DEFAULT_ERROR_RESOLUTION
      end
  | _ => DEFAULT_ERROR_RESOLUTION
  end.

Lemma or_empty_Some {A : Type} (l : list A) : or_empty (Some l) = l.
Proof. by destruct l. Qed.

Lemma interpret_response_ok (r : Response) (self : DefaultErrorHandler) :
  ok r = true ->
  interpret_response (PyResponse r) self = (SUCCESS_RESOLUTION, self).
Proof. intros Hok. run_method. by rewrite Hok. Qed.

Lemma interpret_response_not_ok_result (r : Response) (self : DefaultErrorHandler) :
  ok r = false ->
  result (interpret_response (PyResponse r)) self = resolve (response_filters self) (PyResponse r).
Proof.
  intros Hok. run_method. rewrite Hok.
  destruct (_last_request_to_attempt_count self !! request r); cbn;
    destruct (response_filters self) as [[|f fs]|]; cbn; try done;
    by destruct (matches f (PyResponse r)); [|destruct (for_response_filters fs _)].
Qed.

Lemma interpret_response_not_ok_counts (r : Response) (self : DefaultErrorHandler) :
  ok r = false ->
  _last_request_to_attempt_count (after (interpret_response (PyResponse r)) self) =
  match _last_request_to_attempt_count self !! request r with
  | None => {[ request r := 1 ]}
  | Some n => <[ request r := n + 1 ]> (_last_request_to_attempt_count self)
  end.
Proof.
  intros Hok. run_method. rewrite Hok.
  destruct (_last_request_to_attempt_count self !! request r); cbn;
    destruct (response_filters self) as [[|f fs]|]; cbn; try done;
    by destruct (matches f (PyResponse r)); [|destruct (for_response_filters fs _)].
Qed.

Lemma interpret_response_frame (v : PyValue) (self : DefaultErrorHandler) :
  same_except_attempt_counts self (after (interpret_response v) self).
Proof.
  unfold same_except_attempt_counts.
  destruct v as [r| |]; run_method; try done.
  destruct (ok r); cbn; [done|].
  destruct (_last_request_to_attempt_count self !! request r); cbn;
    destruct (response_filters self) as [[|f fs]|]; cbn; try done;
    by destruct (matches f (PyResponse r)); [|destruct (for_response_filters fs _)].
Qed.

Lemma backoff_time_state (v : PyValue) (n : Z) (self : DefaultErrorHandler) :
  after (backoff_time v n) self = self.
Proof. run_method. by destruct (truthy_list (backoff_strategies self)). Qed.

Lemma backoff_time_result (v : PyValue) (n : Z) (self : DefaultErrorHandler) :
  result (backoff_time v n) self =
  for_backoff_strategies (or_empty (backoff_strategies self)) v n None.
Proof. run_method. by destruct (backoff_strategies self) as [[|s l]|]. Qed.

(** ** The two loops *)

(** The filter loop returns the resolution of the first filter that
    matches: filters before it that do not match are passed over, filters
    after it are not reached. *)
Lemma for_response_filters_first_match
    (pre : list HttpResponseFilter) (f : HttpResponseFilter)
    (post : list HttpResponseFilter) (v : PyValue) (res : ErrorResolution) :
  Forall (λ g, matches g v = None) pre ->
  matches f v = Some res ->
  for_response_filters (pre ++ f :: post) v = Some res.
Proof.
  intros Hpre Hf. induction Hpre as [|g pre Hg _ IH]; cbn.
  - by rewrite Hf.
  - by rewrite Hg.
Qed.

Lemma for_response_filters_no_match (filters : list HttpResponseFilter) (v : PyValue) :
  Forall (λ g, matches g v = None) filters ->
  for_response_filters filters v = None.
Proof. induction 1 as [|g l Hg _ IH]; cbn; [done|by rewrite Hg]. Qed.

(** The backoff loop stops at the first strategy whose value is truthy. *)
Lemma for_backoff_strategies_first_truthy
    (pre : list BackoffStrategy) (s : BackoffStrategy) (post : list BackoffStrategy)
    (v : PyValue) (n : Z) (init : option float) :
  Forall (λ t, truthy_float (strategy_backoff_time t v n) = false) pre ->
  truthy_float (strategy_backoff_time s v n) = true ->
  for_backoff_strategies (pre ++ s :: post) v n init = strategy_backoff_time s v n.
Proof.
  intros Hpre Hs. revert init. induction Hpre as [|t pre Ht _ IH]; intros init; cbn.
  - by rewrite Hs.
  - rewrite Ht. apply IH.
Qed.

(** When no strategy gives a truthy value, the loop returns what the last
    strategy returned, be it [None] or a zero. *)
Lemma for_backoff_strategies_none_truthy
    (l : list BackoffStrategy) (v : PyValue) (n : Z) (init : option float) :
  Forall (λ t, truthy_float (strategy_backoff_time t v n) = false) l ->
  for_backoff_strategies l v n init =
  match last l with
  | Some t => strategy_backoff_time t v n
  | None => init
  end.
Proof.
  intros Hl. revert init. induction Hl as [|t l Ht _ IH]; intros init; cbn; [done|].
  rewrite Ht, IH. destruct l as [|u l]; [done|]. rewrite last_cons_cons.
  destruct (last (u :: l)) eqn:E; [done|]. by apply last_None in E.
Qed.

Lemma for_backoff_strategies_all_None
    (l : list BackoffStrategy) (v : PyValue) (n : Z) :
  Forall (λ t, strategy_backoff_time t v n = None) l ->
  for_backoff_strategies l v n None = None.
Proof.
  induction 1 as [|t l Ht _ IH]; cbn; [done|]. by rewrite Ht.
Qed.

(** ** Construction *)

Section ConstructionFacts.

Variable D : Mapping -> Mapping -> BackoffStrategy.
Variables (parameters cfg : Mapping) (max_retries : option Z) (max_time : Z).

Lemma new_response_filters filters strategies :
  response_filters (new D parameters cfg filters max_retries max_time strategies) =
  Some (or_empty filters ++ [default_filter cfg []]).
Proof.
  unfold new, __post_init__, __init__. run_method. cbn.
  destruct (truthy_list strategies); cbn; f_equal; f_equal; apply or_empty_Some.
Qed.

Lemma new_backoff_strategies filters strategies :
  backoff_strategies (new D parameters cfg filters max_retries max_time strategies) =
  if truthy_list strategies then strategies else Some [D parameters cfg].
Proof.
  unfold new, __post_init__, __init__. run_method. cbn.
  by destruct (truthy_list strategies).
Qed.

Lemma new_attempt_counts filters strategies :
  _last_request_to_attempt_count
    (new D parameters cfg filters max_retries max_time strategies) = ∅.
Proof.
  unfold new, __post_init__, __init__. run_method. cbn.
  by destruct (truthy_list strategies).
Qed.

End ConstructionFacts.

(** The two lists survive any sequence of calls. *)
Lemma calls_frame (cs : list Call) (self : DefaultErrorHandler) :
  same_except_attempt_counts self (after (calls cs) self).
Proof.
  revert self. induction cs as [|c cs IH]; intros self.
  - by repeat split.
  - assert (Hc : same_except_attempt_counts self (after (call c) self)).
    { destruct c as [v|v n].
      - generalize (interpret_response_frame v self).
        unfold after, call, mbind, Method_bind, mret, Method_ret.
        by destruct (interpret_response v self).
      - generalize (backoff_time_state v n self).
        unfold after, call, mbind, Method_bind, mret, Method_ret.
        destruct (backoff_time v n self); cbn. intros ->. by repeat split. }
    specialize (IH (after (call c) self)).
    replace (after (calls (c :: cs)) self) with (after (calls cs) (after (call c) self)).
    + unfold same_except_attempt_counts in *.
      destruct Hc as (?&?&?&?&?&?&?), IH as (?&?&?&?&?&?&?).
      repeat split; congruence.
    + unfold after. cbn [calls]. unfold mbind, Method_bind.
      by destruct (call c self) as [[] ?].
Qed.

(** * The claims *)

(** ** C1: no caller-supplied filters *)

(** C1, as stated, fails: a handler constructed without filters does not
    return RETRY for every response with status >= 300. The guard is
    [response.ok], which holds for every status outside 400..599, so a 301
    gets SUCCESS_RESOLUTION. *)
Lemma C1_counterexample :
  ~ (forall (status : Z) (req : PreparedRequest) (body : string),
       300 <= status ->
       response_action
         (result (interpret_response (Samples.response status req body))
                 (Samples.handler None)) = RETRY).
Proof.
  intros H. specialize (H 301 1%positive EmptyString ltac:(lia)).
  vm_compute in H. discriminate H.
Qed.

(** C1, amended: for every response with status in 400..599 (the responses
    that are not [ok]), a handler constructed with no caller-supplied
    filters ([None] or the empty list) returns a resolution whose action is
    RETRY. *)
Theorem C1_no_filters_error_status_retry
    (D : Mapping -> Mapping -> BackoffStrategy) (parameters cfg : Mapping)
    (max_retries : option Z) (max_time : Z)
    (strategies : option (list BackoffStrategy)) (r : Response) :
  400 <= status_code r < 600 ->
  response_action
    (result (interpret_response (PyResponse r))
            (new D parameters cfg None max_retries max_time strategies)) = RETRY
  /\ response_action
       (result (interpret_response (PyResponse r))
               (new D parameters cfg (Some []) max_retries max_time strategies)) = RETRY.
Proof.
  intros Hstatus.
  assert (Hok : ok r = false).
  { unfold ok, raise_for_status_raises.
    apply negb_false_iff, andb_true_iff. split; lia. }
  assert (H2xx : is_2xx (status_code r) = false).
  { unfold is_2xx. apply andb_false_iff. right. lia. }
  split; rewrite (interpret_response_not_ok_result _ _ Hok), new_response_filters;
    cbn; by rewrite H2xx.
Qed.

Lemma C1_no_filters_error_status_retry_witness :
  response_action
    (result (interpret_response (Samples.response 500 1%positive EmptyString))
            (new Samples.some_default_strategy [] [] None (Some 5) 600 None)) = RETRY.
Proof.
  apply (C1_no_filters_error_status_retry Samples.some_default_strategy [] [] (Some 5) 600 None
           {| status_code := 500; request := 1%positive; text := EmptyString |}).
  cbn. lia.
Defined.

(** ** C2: exceptions and substring filters *)

(** C2, as stated, fails: the filter chain is not evaluated for an
    exception. With the filter [error_message_contains = "retrythisrequest!"],
    action IGNORE, an exception whose message contains that text is
    resolved to RETRY, the default resolution. *)
Lemma C2_counterexample :
  ~ (forall (message s : string) (action : ResponseAction),
       str_contains s message = true ->
       response_action
         (result (interpret_response (PyException message))
                 (Samples.handler (Some [Samples.error_message_filter s action]))) = action).
Proof.
  intros H.
  specialize (H "please retrythisrequest! now"%string "retrythisrequest!"%string IGNORE eq_refl).
  vm_compute in H. discriminate H.
Qed.

(** C2, amended: for every exception outcome and every handler state,
    whatever its filters, [interpret_response] returns
    DEFAULT_ERROR_RESOLUTION (action RETRY) and leaves the handler as it
    was; filters are evaluated for HTTP responses only. *)
Theorem C2_exception_default_resolution (message : string) (self : DefaultErrorHandler) :
  interpret_response (PyException message) self = (DEFAULT_ERROR_RESOLUTION, self)
  /\ response_action (result (interpret_response (PyException message)) self) = RETRY.
Proof. by split. Qed.

(** ** C3: the attempt-count dictionary *)

(** C3, as stated, fails: when the request of a failed response is not yet
    a key, the dictionary is replaced by [{request: 1}], which drops the
    entries of all other requests. After a failure of request 1, a failure
    of request 2 leaves no entry for request 1. *)
Lemma C3_counterexample :
  ~ (forall (self : DefaultErrorHandler) (r : Response) (k : PreparedRequest),
       ok r = false ->
       k <> request r ->
       _last_request_to_attempt_count (after (interpret_response (PyResponse r)) self) !! k
       = _last_request_to_attempt_count self !! k).
Proof.
  intros H.
  specialize (H (after (interpret_response (Samples.response 500 1%positive EmptyString))
                       (Samples.handler None))
                {| status_code := 500; request := 2%positive; text := EmptyString |}
                1%positive eq_refl ltac:(done)).
  vm_compute in H. discriminate H.
Qed.

(** C3, amended: for every response that is not [ok] (status in 400..599),
    if the request identity is already a key of the attempt-count
    dictionary, its count is incremented and every other entry keeps its
    value; if it is not, the dictionary is replaced by the single entry
    [{request: 1}]. *)
Theorem C3_attempt_count_update (self : DefaultErrorHandler) (r : Response) :
  ok r = false ->
  let before := _last_request_to_attempt_count self in
  let after_call :=
    _last_request_to_attempt_count (after (interpret_response (PyResponse r)) self) in
  (forall n : Z,
     before !! request r = Some n ->
     after_call !! request r = Some (n + 1)
     /\ forall k : PreparedRequest, k <> request r -> after_call !! k = before !! k)
  /\ (before !! request r = None -> after_call = {[ request r := 1 ]}).
Proof.
  intros Hok before after_call. subst before after_call.
  rewrite (interpret_response_not_ok_counts _ _ Hok). split.
  - intros n Hn. rewrite Hn. split.
    + apply lookup_insert_eq.
    + intros k Hk. by apply lookup_insert_ne.
  - by intros ->.
Qed.

Lemma C3_attempt_count_update_witness :
  _last_request_to_attempt_count
    (after (interpret_response (Samples.response 500 1%positive EmptyString))
           (Samples.handler None)) = {[ 1%positive := 1 ]}.
Proof.
  apply (C3_attempt_count_update (Samples.handler None)
           {| status_code := 500; request := 1%positive; text := EmptyString |} eq_refl).
  reflexivity.
Defined.

(** Three failures in a row of one request count 1, 2, 3, from any state
    that has no entry for it. *)
Lemma attempt_counts_1_2_3 (self : DefaultErrorHandler) (r : Response) :
  ok r = false ->
  _last_request_to_attempt_count self !! request r = None ->
  let h1 := after (interpret_response (PyResponse r)) self in
  let h2 := after (interpret_response (PyResponse r)) h1 in
  let h3 := after (interpret_response (PyResponse r)) h2 in
  _last_request_to_attempt_count h1 = {[ request r := 1 ]}
  /\ _last_request_to_attempt_count h2 = {[ request r := 2 ]}
  /\ _last_request_to_attempt_count h3 = {[ request r := 3 ]}.
Proof.
  intros Hok Hnone h1 h2 h3.
  assert (E1 : _last_request_to_attempt_count h1 = {[ request r := 1 ]}).
  { subst h1. by rewrite (interpret_response_not_ok_counts _ _ Hok), Hnone. }
  assert (E2 : _last_request_to_attempt_count h2 = {[ request r := 2 ]}).
  { subst h2. rewrite (interpret_response_not_ok_counts _ _ Hok), E1.
    rewrite lookup_singleton_eq. apply insert_singleton_eq. }
  repeat split; [done..|].
  subst h3. rewrite (interpret_response_not_ok_counts _ _ Hok), E2.
  rewrite lookup_singleton_eq. apply insert_singleton_eq.
Qed.

(** A failure of another request in between restarts the count. *)
Example interleaved_requests_restart :
  let a := Samples.response 500 1%positive EmptyString in
  let b := Samples.response 500 2%positive EmptyString in
  let h1 := after (interpret_response a) (Samples.handler None) in
  let h2 := after (interpret_response b) h1 in
  let h3 := after (interpret_response a) h2 in
  _last_request_to_attempt_count h1 = {[ 1%positive := 1 ]}
  /\ _last_request_to_attempt_count h2 = {[ 2%positive := 1 ]}
  /\ _last_request_to_attempt_count h3 = {[ 1%positive := 1 ]}.
Proof. by vm_compute. Qed.

(** ** C4: the backoff chain *)

(** What [backoff_time] does return: the value of the first strategy whose
    value is truthy, that is neither [None] nor zero. *)
Lemma backoff_time_first_truthy
    (self : DefaultErrorHandler) (pre : list BackoffStrategy) (s : BackoffStrategy)
    (post : list BackoffStrategy) (v : PyValue) (n : Z) :
  backoff_strategies self = Some (pre ++ s :: post) ->
  Forall (λ t, truthy_float (strategy_backoff_time t v n) = false) pre ->
  truthy_float (strategy_backoff_time s v n) = true ->
  result (backoff_time v n) self = strategy_backoff_time s v n.
Proof.
  intros Hs Hpre Htruthy.
  rewrite backoff_time_result, Hs, or_empty_Some.
  by apply for_backoff_strategies_first_truthy.
Qed.

(** If every strategy returns [None], so does [backoff_time]. *)
Lemma backoff_time_all_None
    (self : DefaultErrorHandler) (v : PyValue) (n : Z) :
  Forall (λ t, strategy_backoff_time t v n = None) (or_empty (backoff_strategies self)) ->
  result (backoff_time v n) self = None.
Proof.
  intros Hall. rewrite backoff_time_result.
  by apply for_backoff_strategies_all_None.
Qed.

(** C4: the code at the failing input. The first strategy returns a zero
    wait, the second returns 5 seconds: [backoff_time] returns 5, the zero
    is passed over because the loop tests [if backoff:]. With a second
    strategy that has no opinion, the zero is lost altogether and [None]
    is returned. *)
Theorem C4_zero_backoff_is_skipped :
  let zero := Samples.constant_backoff 0%float in
  let five := Samples.constant_backoff 5%float in
  let make := new Samples.some_default_strategy [] [] None (Some 5) (60 * 10) in
  strategy_backoff_time zero PyNone 1 = Some 0%float
  /\ result (backoff_time PyNone 1) (make (Some [zero; five])) = Some 5%float
  /\ result (backoff_time PyNone 1) (make (Some [zero; five])) <> Some 0%float
  /\ result (backoff_time PyNone 1) (make (Some [zero; Samples.no_backoff])) = None.
Proof.
  cbv zeta. repeat split.
  intros E. apply (f_equal truthy_float) in E. vm_compute in E. discriminate E.
Qed.

(** ** C5: an input that is neither a response nor an exception *)

(** C5, as stated, fails: [interpret_response] has no branch that raises.
    An input that is neither a response nor an exception skips the
    [isinstance] branch and gets the default resolution, whose action is
    RETRY; the claim requires at the least that no such resolution is
    returned. *)
Lemma C5_counterexample :
  ~ (forall (self : DefaultErrorHandler) (v : PyValue),
       isinstance_Response v = false ->
       isinstance_Exception v = false ->
       response_action (result (interpret_response v) self) <> RETRY).
Proof.
  intros H. by apply (H (Samples.handler None) PyNone eq_refl eq_refl).
Qed.

(** C5, amended: for [None], [interpret_response] raises nothing: it
    returns DEFAULT_ERROR_RESOLUTION, whose action is RETRY, and leaves the
    handler as it was. *)
Theorem C5_None_default_resolution (self : DefaultErrorHandler) :
  interpret_response PyNone self = (DEFAULT_ERROR_RESOLUTION, self)
  /\ response_action (result (interpret_response PyNone) self) = RETRY.
Proof. by split. Qed.

(** ** C6: filter order *)

(** C6, as stated, fails for the non-2xx responses that are [ok]: a 302 is
    answered with SUCCESS_RESOLUTION before any filter is tried, also when
    the first filter of the list matches it with action IGNORE. *)
Lemma C6_counterexample :
  ~ (forall (self : DefaultErrorHandler) (r : Response)
            (pre : list HttpResponseFilter) (f : HttpResponseFilter)
            (post : list HttpResponseFilter) (res : ErrorResolution),
       is_2xx (status_code r) = false ->
       response_filters self = Some (pre ++ f :: post) ->
       Forall (λ g, matches g (PyResponse r) = None) pre ->
       matches f (PyResponse r) = Some res ->
       result (interpret_response (PyResponse r)) self = res).
Proof.
  intros H.
  specialize (H (Samples.handler (Some [Samples.http_codes_filter [302] IGNORE]))
                {| status_code := 302; request := 1%positive; text := EmptyString |}
                [] (Samples.http_codes_filter [302] IGNORE)
                [default_filter [] []] (resolution_of IGNORE None)
                eq_refl eq_refl (Forall_nil_2 _) eq_refl).
  vm_compute in H. discriminate H.
Qed.

(** C6, amended: for every response that is not [ok] (status in 400..599)
    and every filter list, [interpret_response] returns the resolution of
    the first filter in list order that matches; a later filter cannot
    override it. *)
Theorem C6_first_matching_filter_wins
    (self : DefaultErrorHandler) (r : Response)
    (pre : list HttpResponseFilter) (f : HttpResponseFilter)
    (post : list HttpResponseFilter) (res : ErrorResolution) :
  ok r = false ->
  response_filters self = Some (pre ++ f :: post) ->
  Forall (λ g, matches g (PyResponse r) = None) pre ->
  matches f (PyResponse r) = Some res ->
  result (interpret_response (PyResponse r)) self = res.
Proof.
  intros Hok Hfilters Hpre Hf.
  rewrite (interpret_response_not_ok_result _ _ Hok), Hfilters.
  pose proof (for_response_filters_first_match pre f post _ res Hpre Hf) as Hloop.
  unfold resolve. destruct (pre ++ f :: post) as [|g l] eqn:E.
  - by destruct pre.
  - by rewrite Hloop.
Qed.

(** Filters [[{404 -> IGNORE}, {404 -> RETRY}]]: a 404 resolves to IGNORE. *)
Lemma C6_first_matching_filter_wins_witness :
  result (interpret_response (Samples.response 404 1%positive EmptyString))
         (Samples.handler (Some [Samples.http_codes_filter [404] IGNORE;
                                 Samples.http_codes_filter [404] RETRY]))
  = resolution_of IGNORE None.
Proof.
  apply (C6_first_matching_filter_wins _
           {| status_code := 404; request := 1%positive; text := EmptyString |}
           [] (Samples.http_codes_filter [404] IGNORE)
           [Samples.http_codes_filter [404] RETRY; default_filter [] []]).
  - reflexivity.
  - reflexivity.
  - constructor.
  - reflexivity.
Defined.

(** ** C7: successful responses *)

(** C7: for every response with status in [200,299) and every handler
    state, whatever its filters, [interpret_response] returns
    SUCCESS_RESOLUTION and the handler, attempt counts included, is as it
    was. The result does not depend on the filter list, which is how a
    pure embedding says that no filter is consulted. *)
Theorem C7_success_immediately (self : DefaultErrorHandler) (r : Response) :
  200 <= status_code r < 299 ->
  interpret_response (PyResponse r) self = (SUCCESS_RESOLUTION, self).
Proof.
  intros Hstatus. apply interpret_response_ok.
  unfold ok, raise_for_status_raises.
  apply negb_true_iff, andb_false_iff. left. lia.
Qed.

(** A 200 is a success also when the first filter would turn it into FAIL. *)
Lemma C7_success_immediately_witness :
  interpret_response (Samples.response 200 1%positive EmptyString)
    (Samples.handler (Some [Samples.http_codes_filter [200] FAIL]))
  = (SUCCESS_RESOLUTION, Samples.handler (Some [Samples.http_codes_filter [200] FAIL])).
Proof.
  apply (C7_success_immediately
           (Samples.handler (Some [Samples.http_codes_filter [200] FAIL]))
           {| status_code := 200; request := 1%positive; text := EmptyString |}).
  cbn. lia.
Defined.

(** ** C8: the attempt counts are bookkeeping only *)

(** C8: two handler states that differ only in the attempt-count
    dictionary give the same resolution and the same backoff duration for
    the same arguments. *)
Theorem C8_attempt_counts_do_not_influence_outputs
    (h1 h2 : DefaultErrorHandler) (v : PyValue) (attempt_count : Z) :
  same_except_attempt_counts h1 h2 ->
  result (interpret_response v) h1 = result (interpret_response v) h2
  /\ result (backoff_time v attempt_count) h1 = result (backoff_time v attempt_count) h2.
Proof.
  intros (_ & Hfilters & _ & _ & _ & _ & Hstrategies). split.
  - destruct v as [r| |]; [|done..].
    destruct (ok r) eqn:Hok.
    + unfold result. by rewrite !(interpret_response_ok _ _ Hok).
    + by rewrite !(interpret_response_not_ok_result _ _ Hok), Hfilters.
  - by rewrite !backoff_time_result, Hstrategies.
Qed.

(** A fresh handler and the same handler after a failed request. *)
Lemma C8_attempt_counts_do_not_influence_outputs_witness :
  let h1 := Samples.handler None in
  let h2 := after (interpret_response (Samples.response 500 7%positive EmptyString)) h1 in
  _last_request_to_attempt_count h1 <> _last_request_to_attempt_count h2
  /\ result (interpret_response (Samples.response 404 7%positive EmptyString)) h1
     = result (interpret_response (Samples.response 404 7%positive EmptyString)) h2
  /\ result (backoff_time (Samples.response 404 7%positive EmptyString) 2) h1
     = result (backoff_time (Samples.response 404 7%positive EmptyString) 2) h2.
Proof.
  cbv zeta. split.
  - intros E. apply (f_equal (λ m : gmap PreparedRequest Z, m !! 7%positive)) in E.
    vm_compute in E. discriminate E.
  - apply (C8_attempt_counts_do_not_influence_outputs
             (Samples.handler None)
             (after (interpret_response (Samples.response 500 7%positive EmptyString))
                    (Samples.handler None))).
    repeat split; reflexivity.
Defined.

(** ** C9: what construction establishes *)

(** C9: after construction the filter list is the caller's filters, in
    their order, followed by one default filter; the strategy list is the
    single default strategy when the caller supplied [None] or an empty
    list; and no sequence of calls to the two operations changes either
    list. *)
Theorem C9_lists_fixed_at_construction
    (D : Mapping -> Mapping -> BackoffStrategy) (parameters cfg : Mapping)
    (max_retries : option Z) (max_time : Z) :
  (forall (user : list HttpResponseFilter) (strategies : option (list BackoffStrategy)),
     response_filters (new D parameters cfg (Some user) max_retries max_time strategies)
     = Some (user ++ [default_filter cfg []]))
  /\ (forall strategies : option (list BackoffStrategy),
        response_filters (new D parameters cfg None max_retries max_time strategies)
        = Some [default_filter cfg []])
  /\ (forall filters : option (list HttpResponseFilter),
        backoff_strategies (new D parameters cfg filters max_retries max_time None)
        = Some [D parameters cfg]
        /\ backoff_strategies (new D parameters cfg filters max_retries max_time (Some []))
           = Some [D parameters cfg])
  /\ (forall (filters : option (list HttpResponseFilter))
             (strategies : option (list BackoffStrategy)) (cs : list Call),
        let h := new D parameters cfg filters max_retries max_time strategies in
        response_filters (after (calls cs) h) = response_filters h
        /\ backoff_strategies (after (calls cs) h) = backoff_strategies h).
Proof.
  split; [|split; [|split]].
  - intros user strategies. by rewrite new_response_filters, or_empty_Some.
  - intros strategies. by rewrite new_response_filters.
  - intros filters. by rewrite !new_backoff_strategies.
  - intros filters strategies cs h.
    destruct (calls_frame cs h) as (_ & Hfilters & _ & _ & _ & _ & Hstrategies).
    by rewrite Hfilters, Hstrategies.
Qed.

(** ** C10: what the two operations leave alone *)

(** C10: [backoff_time] leaves the whole handler state as it was, and
    [interpret_response] leaves every attribute but the attempt-count
    dictionary as it was: configuration, filter list, strategy list and
    the retry limits. *)
Theorem C10_operations_frame
    (self : DefaultErrorHandler) (v : PyValue) (attempt_count : Z) :
  after (backoff_time v attempt_count) self = self
  /\ same_except_attempt_counts self (after (interpret_response v) self).
Proof.
  split.
  - apply backoff_time_state.
  - apply interpret_response_frame.
Qed.

(** * Further properties of the two operations *)

(** ** Sequences of calls *)

Lemma after_calls_cons (c : Call) (cs : list Call) (self : DefaultErrorHandler) :
  after (calls (c :: cs)) self = after (calls cs) (after (call c) self).
Proof.
  unfold after. cbn [calls]. unfold mbind, Method_bind.
  by destruct (call c self) as [[] ?].
Qed.

Lemma after_call_interpret (v : PyValue) (self : DefaultErrorHandler) :
  after (call (InterpretResponse v)) self = after (interpret_response v) self.
Proof.
  unfold after, call, mbind, Method_bind, mret, Method_ret.
  by destruct (interpret_response v self).
Qed.

Lemma after_call_backoff (v : PyValue) (n : Z) (self : DefaultErrorHandler) :
  after (call (BackoffTime v n)) self = self.
Proof.
  generalize (backoff_time_state v n self).
  unfold after, call, mbind, Method_bind, mret, Method_ret.
  by destruct (backoff_time v n self).
Qed.

Lemma interpret_response_not_failed (v : PyValue) (self : DefaultErrorHandler) :
  is_failed_response v = false ->
  after (interpret_response v) self = self.
Proof.
  destruct v as [r| |]; [|done..]. cbn. intros Hok%negb_false_iff.
  unfold after. by rewrite (interpret_response_ok _ _ Hok).
Qed.

Lemma interpret_response_result_filters (v : PyValue) (h1 h2 : DefaultErrorHandler) :
  response_filters h1 = response_filters h2 ->
  result (interpret_response v) h1 = result (interpret_response v) h2.
Proof.
  intros Hfilters. destruct v as [r| |]; [|done..].
  destruct (ok r) eqn:Hok.
  - unfold result. by rewrite !(interpret_response_ok _ _ Hok).
  - by rewrite !(interpret_response_not_ok_result _ _ Hok), Hfilters.
Qed.

Lemma for_response_filters_Some
    (filters : list HttpResponseFilter) (v : PyValue) (res : ErrorResolution) :
  for_response_filters filters v = Some res ->
  exists f : HttpResponseFilter, f ∈ filters /\ matches f v = Some res.
Proof.
  induction filters as [|g l IH]; cbn; [done|].
  destruct (matches g v) as [m|] eqn:Hg.
  - intros [= <-]. exists g. split; [left|done].
  - intros (f & Hin & Hf)%IH. exists f. split; [by right|done].
Qed.

(** ** [interpret_response]: which outcomes are successes *)

(** X1: every response whose status is below 400 or at least 600 is [ok]:
    [interpret_response] returns SUCCESS_RESOLUTION for it and leaves the
    handler, attempt counts included, as it was, whatever the filters. *)
Theorem ok_status_is_success (self : DefaultErrorHandler) (r : Response) :
  status_code r < 400 \/ 600 <= status_code r ->
  interpret_response (PyResponse r) self = (SUCCESS_RESOLUTION, self).
Proof.
  intros Hstatus. apply interpret_response_ok.
  unfold ok, raise_for_status_raises.
  apply negb_true_iff, andb_false_iff. lia.
Qed.

Lemma ok_status_is_success_witness :
  interpret_response (Samples.response 302 1%positive EmptyString)
    (Samples.handler (Some [Samples.http_codes_filter [302] FAIL]))
  = (SUCCESS_RESOLUTION, Samples.handler (Some [Samples.http_codes_filter [302] FAIL])).
Proof.
  apply (ok_status_is_success
           (Samples.handler (Some [Samples.http_codes_filter [302] FAIL]))
           {| status_code := 302; request := 1%positive; text := EmptyString |}).
  left. cbn. lia.
Defined.

(** X2: [interpret_response] changes the handler exactly when the outcome
    is a response that is not [ok]; then the attempt-count dictionary is
    never what it was. *)
Theorem state_changes_iff_failed_response (v : PyValue) (self : DefaultErrorHandler) :
  after (interpret_response v) self = self <-> is_failed_response v = false.
Proof.
  split; [|apply interpret_response_not_failed].
  destruct (is_failed_response v) eqn:Hfailed; [|done].
  intros Hsame. exfalso.
  destruct v as [r| |]; [|done..]. cbn in Hfailed.
  apply negb_true_iff in Hfailed.
  pose proof (interpret_response_not_ok_counts r self Hfailed) as Hcounts.
  rewrite Hsame in Hcounts.
  destruct (_last_request_to_attempt_count self !! request r) as [n|] eqn:Hlookup.
  - apply (f_equal (λ m : gmap PreparedRequest Z, m !! request r)) in Hcounts.
    cbn in Hcounts. rewrite Hlookup, lookup_insert_eq in Hcounts.
    injection Hcounts. lia.
  - apply (f_equal (λ m : gmap PreparedRequest Z, m !! request r)) in Hcounts.
    cbn in Hcounts. by rewrite Hlookup, lookup_singleton_eq in Hcounts.
Qed.

(** ** The attempt-count dictionary over time *)

Lemma interpret_response_keeps_shape (v : PyValue) (self : DefaultErrorHandler) :
  last_request_shape (_last_request_to_attempt_count self) ->
  last_request_shape (_last_request_to_attempt_count (after (interpret_response v) self)).
Proof.
  intros Hshape.
  destruct (is_failed_response v) eqn:Hfailed;
    [|by rewrite (interpret_response_not_failed _ _ Hfailed)].
  destruct v as [r| |]; [|done..]. cbn in Hfailed. apply negb_true_iff in Hfailed.
  rewrite (interpret_response_not_ok_counts _ _ Hfailed).
  destruct (_last_request_to_attempt_count self !! request r) as [m|] eqn:Hlookup.
  - destruct Hshape as [Hempty|(req & n & Hn & Hsingle)].
    + by rewrite Hempty, lookup_empty in Hlookup.
    + rewrite Hsingle in Hlookup |- *.
      apply lookup_singleton_Some in Hlookup as [-> ->].
      right. exists (request r), (m + 1). split; [lia|apply insert_singleton_eq].
  - right. exists (request r), 1. by split.
Qed.

(** X3: the attempt-count dictionary of a constructed handler never holds
    more than one request: after any sequence of calls it is empty or a
    single entry whose count is at least 1. *)
Theorem attempt_counts_hold_one_request
    (D : Mapping -> Mapping -> BackoffStrategy) (parameters cfg : Mapping)
    (filters : option (list HttpResponseFilter)) (max_retries : option Z) (max_time : Z)
    (strategies : option (list BackoffStrategy)) (cs : list Call) :
  let h := after (calls cs) (new D parameters cfg filters max_retries max_time strategies) in
  last_request_shape (_last_request_to_attempt_count h)
  /\ (size (_last_request_to_attempt_count h) <= 1)%nat.
Proof.
  cbv zeta.
  assert (Hshape : last_request_shape (_last_request_to_attempt_count
            (after (calls cs) (new D parameters cfg filters max_retries max_time strategies)))).
  { generalize (new D parameters cfg filters max_retries max_time strategies)
               (new_attempt_counts D parameters cfg max_retries max_time filters strategies).
    intros h Hh.
    assert (Hinit : last_request_shape (_last_request_to_attempt_count h)) by (by left).
    clear Hh. revert h Hinit.
    induction cs as [|c cs IH]; intros h Hinit; [done|].
    rewrite after_calls_cons. apply IH.
    destruct c as [v|v n].
    - rewrite after_call_interpret. by apply interpret_response_keeps_shape.
    - by rewrite after_call_backoff. }
  split; [done|].
  destruct Hshape as [->|(req & n & _ & ->)].
  - rewrite map_size_empty. lia.
  - rewrite map_size_singleton. lia.
Qed.

Lemma repeated_failures_present (r : Response) (n : nat) :
  ok r = false ->
  forall (self : DefaultErrorHandler) (m : Z),
    _last_request_to_attempt_count self !! request r = Some m ->
    _last_request_to_attempt_count
      (after (calls (replicate n (InterpretResponse (PyResponse r)))) self)
    = <[ request r := m + Z.of_nat n ]> (_last_request_to_attempt_count self).
Proof.
  intros Hok. induction n as [|n IH]; intros self m Hm.
  - cbn [replicate calls]. unfold after, mret, Method_ret. cbn.
    rewrite Z.add_0_r. symmetry. by apply insert_id.
  - cbn [replicate]. rewrite after_calls_cons, after_call_interpret.
    rewrite (IH _ (m + 1)).
    + rewrite (interpret_response_not_ok_counts _ _ Hok), Hm, insert_insert_eq.
      f_equal. lia.
    + rewrite (interpret_response_not_ok_counts _ _ Hok), Hm. apply lookup_insert_eq.
Qed.

(** X4: [n] failed responses in a row for a request that has no entry yet
    leave the dictionary as the single entry [{request: n}] (for [n >= 1]),
    whatever it held before. *)
Theorem consecutive_failures_are_counted
    (self : DefaultErrorHandler) (r : Response) (n : nat) :
  ok r = false ->
  _last_request_to_attempt_count self !! request r = None ->
  _last_request_to_attempt_count
    (after (calls (replicate (S n) (InterpretResponse (PyResponse r)))) self)
  = {[ request r := Z.of_nat (S n) ]}.
Proof.
  intros Hok Hnone. cbn [replicate].
  rewrite after_calls_cons, after_call_interpret.
  rewrite (repeated_failures_present r n Hok _ 1).
  - rewrite (interpret_response_not_ok_counts _ _ Hok), Hnone, insert_singleton_eq.
    f_equal. lia.
  - rewrite (interpret_response_not_ok_counts _ _ Hok), Hnone. apply lookup_singleton_eq.
Qed.

Lemma consecutive_failures_are_counted_witness :
  _last_request_to_attempt_count
    (after (calls (replicate 4 (InterpretResponse
                                  (Samples.response 503 9%positive EmptyString))))
           (Samples.handler None))
  = {[ 9%positive := 4 ]}.
Proof.
  apply (consecutive_failures_are_counted (Samples.handler None)
           {| status_code := 503; request := 9%positive; text := EmptyString |} 3).
  - reflexivity.
  - reflexivity.
Defined.

(** X5: [n] failed responses in a row for a request that already has the
    count [m] raise its count to [m + n] and leave the entry of every
    other request as it was. *)
Theorem repeated_failures_add_up
    (self : DefaultErrorHandler) (r : Response) (n : nat) (m : Z) :
  ok r = false ->
  _last_request_to_attempt_count self !! request r = Some m ->
  let h := after (calls (replicate n (InterpretResponse (PyResponse r)))) self in
  _last_request_to_attempt_count h !! request r = Some (m + Z.of_nat n)
  /\ forall k : PreparedRequest,
       k <> request r ->
       _last_request_to_attempt_count h !! k = _last_request_to_attempt_count self !! k.
Proof.
  intros Hok Hm h. subst h.
  rewrite (repeated_failures_present r n Hok self m Hm). split.
  - apply lookup_insert_eq.
  - intros k Hk. by apply lookup_insert_ne.
Qed.

Lemma repeated_failures_add_up_witness :
  let r := {| status_code := 500; request := 3%positive; text := EmptyString |} in
  let self := after (interpret_response (PyResponse r)) (Samples.handler None) in
  _last_request_to_attempt_count
    (after (calls (replicate 2 (InterpretResponse (PyResponse r)))) self) !! 3%positive
  = Some 3.
Proof.
  cbv zeta.
  apply (repeated_failures_add_up
           (after (interpret_response
                     (PyResponse {| status_code := 500; request := 3%positive;
                                    text := EmptyString |}))
                  (Samples.handler None))
           {| status_code := 500; request := 3%positive; text := EmptyString |} 2 1).
  - reflexivity.
  - reflexivity.
Defined.

(** X6: what a handler answers does not depend on what it was asked
    before: after any sequence of calls, [interpret_response] returns the
    same resolution and [backoff_time] the same duration as before them. *)
Theorem answers_independent_of_history
    (self : DefaultErrorHandler) (cs : list Call) (v : PyValue) (attempt_count : Z) :
  result (interpret_response v) (after (calls cs) self) = result (interpret_response v) self
  /\ result (backoff_time v attempt_count) (after (calls cs) self)
     = result (backoff_time v attempt_count) self.
Proof.
  destruct (calls_frame cs self) as (_ & Hfilters & _ & _ & _ & _ & Hstrategies). split.
  - symmetry. by apply interpret_response_result_filters.
  - by rewrite !backoff_time_result, Hstrategies.
Qed.

(** ** [interpret_response]: where a resolution comes from *)

Lemma resolve_first_match
    (pre : list HttpResponseFilter) (f : HttpResponseFilter)
    (post : list HttpResponseFilter) (v : PyValue) (res : ErrorResolution) :
  Forall (λ g, matches g v = None) pre ->
  matches f v = Some res ->
  resolve (Some (pre ++ f :: post)) v = res.
Proof.
  intros Hpre Hf.
  pose proof (for_response_filters_first_match pre f post v res Hpre Hf) as Hloop.
  unfold resolve. destruct (pre ++ f :: post) as [|g l] eqn:E.
  - by destruct pre.
  - by rewrite Hloop.
Qed.

Lemma resolve_no_match (filters : option (list HttpResponseFilter)) (v : PyValue) :
  Forall (λ g, matches g v = None) (or_empty filters) ->
  resolve filters v = DEFAULT_ERROR_RESOLUTION.
Proof.
  destruct filters as [[|f fs]|]; [done| |done].
  intros Hall. cbn [or_empty] in Hall. unfold resolve.
  by rewrite (for_response_filters_no_match _ _ Hall).
Qed.

(** X7: a failed response that no filter of the handler matches gets
    DEFAULT_ERROR_RESOLUTION; so does every failed response when the
    filter attribute is [None] or an empty list. *)
Theorem no_filter_matches_default (self : DefaultErrorHandler) (r : Response) :
  ok r = false ->
  Forall (λ f, matches f (PyResponse r) = None) (or_empty (response_filters self)) ->
  result (interpret_response (PyResponse r)) self = DEFAULT_ERROR_RESOLUTION.
Proof.
  intros Hok Hall.
  rewrite (interpret_response_not_ok_result _ _ Hok).
  by apply resolve_no_match.
Qed.

(** The filter attribute reassigned after construction to one filter for
    404: a 500 matches nothing. *)
Lemma no_filter_matches_default_witness :
  result (interpret_response (Samples.response 500 1%positive EmptyString))
         (after (set_response_filters (Some [Samples.http_codes_filter [404] IGNORE]))
                (Samples.handler None))
  = DEFAULT_ERROR_RESOLUTION.
Proof.
  apply (no_filter_matches_default
           (after (set_response_filters (Some [Samples.http_codes_filter [404] IGNORE]))
                  (Samples.handler None))
           {| status_code := 500; request := 1%positive; text := EmptyString |}).
  - reflexivity.
  - repeat constructor.
Defined.

(** X8: on a constructed handler, a response with status in 400..599 that
    none of the caller's filters matches is answered by the appended
    default filter, or with DEFAULT_ERROR_RESOLUTION if that does not
    match either; with the default filter as the spec describes it, the
    action is RETRY. *)
Theorem unmatched_error_is_retried
    (D : Mapping -> Mapping -> BackoffStrategy) (parameters cfg : Mapping)
    (max_retries : option Z) (max_time : Z)
    (strategies : option (list BackoffStrategy))
    (user : list HttpResponseFilter) (r : Response) :
  400 <= status_code r < 600 ->
  Forall (λ f, matches f (PyResponse r) = None) user ->
  let res := result (interpret_response (PyResponse r))
                    (new D parameters cfg (Some user) max_retries max_time strategies) in
  res = default DEFAULT_ERROR_RESOLUTION (matches (default_filter cfg []) (PyResponse r))
  /\ response_action res = RETRY.
Proof.
  intros Hstatus Huser res. subst res.
  assert (Hok : ok r = false).
  { unfold ok, raise_for_status_raises.
    apply negb_false_iff, andb_true_iff. split; lia. }
  assert (Hdefault : matches (default_filter cfg []) (PyResponse r)
                     = Some (resolution_of RETRY None)).
  { cbn. unfold is_2xx.
    replace (status_code r <=? 299) with false by (symmetry; apply Z.leb_gt; lia).
    by rewrite andb_false_r. }
  rewrite (interpret_response_not_ok_result _ _ Hok), new_response_filters, or_empty_Some.
  rewrite (resolve_first_match user _ [] _ _ Huser Hdefault), Hdefault.
  by split.
Qed.

Lemma unmatched_error_is_retried_witness :
  response_action
    (result (interpret_response (Samples.response 500 1%positive EmptyString))
            (Samples.handler (Some [Samples.http_codes_filter [404] IGNORE;
                                    Samples.http_codes_filter [429] FAIL])))
  = RETRY.
Proof.
  apply (unmatched_error_is_retried Samples.some_default_strategy [] [] (Some 5) (60 * 10) None
           [Samples.http_codes_filter [404] IGNORE; Samples.http_codes_filter [429] FAIL]
           {| status_code := 500; request := 1%positive; text := EmptyString |}).
  - cbn. lia.
  - repeat constructor.
Defined.

(** X9: [interpret_response] never makes up a resolution: its result is
    SUCCESS_RESOLUTION, DEFAULT_ERROR_RESOLUTION, or the resolution that
    one of the handler's filters returned for this outcome. *)
Theorem resolution_comes_from_a_filter (self : DefaultErrorHandler) (v : PyValue) :
  let res := result (interpret_response v) self in
  res = SUCCESS_RESOLUTION
  \/ res = DEFAULT_ERROR_RESOLUTION
  \/ exists f : HttpResponseFilter,
       f ∈ or_empty (response_filters self) /\ matches f v = Some res.
Proof.
  cbv zeta. destruct v as [r| |]; [|by right; left..].
  destruct (ok r) eqn:Hok.
  - left. unfold result. by rewrite (interpret_response_ok _ _ Hok).
  - right. rewrite (interpret_response_not_ok_result _ _ Hok).
    destruct (response_filters self) as [[|f fs]|]; [by left| |by left].
    unfold resolve.
    destruct (for_response_filters (f :: fs) (PyResponse r)) as [m|] eqn:Hloop;
      [|by left].
    right. by apply for_response_filters_Some.
Qed.

(** ** [backoff_time]: which strategy answers *)

(** Strategies [[none, 0, 7, 9]]: the 7 is returned. *)
Lemma backoff_time_first_truthy_witness :
  result (backoff_time PyNone 1)
         (Samples.handler_with_strategies
            (Some [Samples.no_backoff; Samples.constant_backoff 0%float;
                   Samples.constant_backoff 7%float; Samples.constant_backoff 9%float]))
  = Some 7%float.
Proof.
  apply (backoff_time_first_truthy _
           [Samples.no_backoff; Samples.constant_backoff 0%float]
           (Samples.constant_backoff 7%float) [Samples.constant_backoff 9%float]).
  - reflexivity.
  - repeat constructor.
  - reflexivity.
Defined.

Lemma backoff_time_all_None_witness :
  result (backoff_time (PyException "timed out"%string) 3)
         (Samples.handler_with_strategies (Some [Samples.no_backoff; Samples.no_backoff]))
  = None.
Proof.
  apply (backoff_time_all_None
           (Samples.handler_with_strategies (Some [Samples.no_backoff; Samples.no_backoff]))).
  repeat constructor.
Defined.

(** X12: when every strategy answers [None] or zero, [backoff_time]
    returns the answer of the last strategy in the list: a zero given by
    the last strategy is returned, a zero given by an earlier one is
    replaced by what the last one says. *)
Theorem backoff_time_falls_back_to_last
    (self : DefaultErrorHandler) (l : list BackoffStrategy) (v : PyValue) (n : Z) :
  backoff_strategies self = Some l ->
  Forall (λ t, truthy_float (strategy_backoff_time t v n) = false) l ->
  result (backoff_time v n) self = last l ≫= λ t, strategy_backoff_time t v n.
Proof.
  intros Hl Hfalsy.
  rewrite backoff_time_result, Hl, or_empty_Some.
  rewrite (for_backoff_strategies_none_truthy _ _ _ _ Hfalsy).
  by destruct (last l).
Qed.

Lemma backoff_time_falls_back_to_last_witness :
  result (backoff_time PyNone 1)
         (Samples.handler_with_strategies
            (Some [Samples.no_backoff; Samples.constant_backoff 0%float]))
  = Some 0%float.
Proof.
  apply (backoff_time_falls_back_to_last _
           [Samples.no_backoff; Samples.constant_backoff 0%float]).
  - reflexivity.
  - repeat constructor.
Defined.

(** X13: a handler constructed without backoff strategies ([None] or an
    empty list) answers exactly what the default strategy answers, a zero
    and [None] included. *)
Theorem default_strategy_alone_decides
    (D : Mapping -> Mapping -> BackoffStrategy) (parameters cfg : Mapping)
    (filters : option (list HttpResponseFilter)) (max_retries : option Z) (max_time : Z)
    (v : PyValue) (n : Z) :
  result (backoff_time v n) (new D parameters cfg filters max_retries max_time None)
  = strategy_backoff_time (D parameters cfg) v n
  /\ result (backoff_time v n) (new D parameters cfg filters max_retries max_time (Some []))
     = strategy_backoff_time (D parameters cfg) v n.
Proof.
  split; rewrite backoff_time_result, new_backoff_strategies; cbn;
    by destruct (truthy_float _).
Qed.

Lemma for_backoff_strategies_from_strategy
    (l : list BackoffStrategy) (v : PyValue) (n : Z) (init : option float) :
  l <> [] ->
  exists s : BackoffStrategy,
    s ∈ l /\ for_backoff_strategies l v n init = strategy_backoff_time s v n.
Proof.
  revert init. induction l as [|t l IH]; intros init Hne; [done|]. cbn.
  destruct (truthy_float (strategy_backoff_time t v n)) eqn:Ht.
  - exists t. split; [left|done].
  - destruct l as [|u l].
    + exists t. split; [left|done].
    + destruct (IH (strategy_backoff_time t v n)) as (s & Hin & Hs); [done|].
      exists s. split; [by right|done].
Qed.

(** X14: on a constructed handler, [backoff_time] always returns the
    answer of one of the handler's strategies for the given arguments; it
    computes no duration of its own. *)
Theorem backoff_comes_from_a_strategy
    (D : Mapping -> Mapping -> BackoffStrategy) (parameters cfg : Mapping)
    (filters : option (list HttpResponseFilter)) (max_retries : option Z) (max_time : Z)
    (strategies : option (list BackoffStrategy)) (v : PyValue) (n : Z) :
  let h := new D parameters cfg filters max_retries max_time strategies in
  exists s : BackoffStrategy,
    s ∈ or_empty (backoff_strategies h)
    /\ result (backoff_time v n) h = strategy_backoff_time s v n.
Proof.
  cbv zeta. rewrite backoff_time_result, new_backoff_strategies.
  apply for_backoff_strategies_from_strategy.
  by destruct strategies as [[|s l]|].
Qed.

(** X15: a non-empty list of backoff strategies given to the constructor
    is kept as it is; the default strategy is not added to it. *)
Theorem supplied_strategies_are_kept
    (D : Mapping -> Mapping -> BackoffStrategy) (parameters cfg : Mapping)
    (filters : option (list HttpResponseFilter)) (max_retries : option Z) (max_time : Z)
    (strategies : list BackoffStrategy) :
  strategies <> [] ->
  backoff_strategies (new D parameters cfg filters max_retries max_time (Some strategies))
  = Some strategies.
Proof.
  intros Hne. rewrite new_backoff_strategies. by destruct strategies.
Qed.

Lemma supplied_strategies_are_kept_witness :
  backoff_strategies
    (Samples.handler_with_strategies
       (Some [Samples.constant_backoff 1%float; Samples.no_backoff]))
  = Some [Samples.constant_backoff 1%float; Samples.no_backoff].
Proof.
  apply (supplied_strategies_are_kept Samples.some_default_strategy [] [] None (Some 5)
           (60 * 10) [Samples.constant_backoff 1%float; Samples.no_backoff]).
  discriminate.
Defined.
